(** * github-action-appetize: input validation and request construction

    A shallow embedding of [src/appetize.ts] and the properties of its
    validator, request builder and upload step.

    Conventions of the embedding:
    - a JavaScript string is a [string]: a sequence of code units below 256;
    - a JavaScript number is an IEEE 754 binary64 value, [spec_float] of the
      Standard Library with precision 53 and maximal exponent 1024;
    - [throw new Error(msg)] is the completion [Throw {| message := msg |}];
    - the module-level object [inputs] lives in a store of objects and is
      reached through its reference, so a copy and an alias differ. *)

From Stdlib Require Import ZArith String Ascii List Bool Lia DecimalString.
From Stdlib Require Import Floats.SpecFloat.
From stdpp Require Import base gmap strings.
Open Scope Z_scope.

(** * The JavaScript primitives the action relies on *)

Module JS.

Abbreviation number := spec_float.

Definition prec : Z := 53.
Definition emax : Z := 1024.

Definition NaN : number := S754_nan.
Definition Infinity : number := S754_infinity false.

(** The number denoted by an integer literal of the source, such as [30]. *)
Definition of_Z (z : Z) : number := binary_normalize prec emax z 0 false.

(** The number nearest to [(-1)^neg * m * 10^e] (ties to even), [0 <= m]:
    an exact integer is rounded directly, a fraction through the exact
    quotient and the position of its remainder. *)
Definition of_decimal (neg : bool) (m e : Z) : number :=
  match m with
  | Zpos p =>
      if 0 <=? e then binary_round prec emax neg (Z.to_pos (Zpos p * 10 ^ e)) 0
      else
        let '(q, e', l) := SFdiv_core_binary prec emax (Zpos p) 0 (10 ^ (- e)) 0 in
        binary_round_aux prec emax neg q e' l
  | _ => S754_zero neg
  end.

(** [x === y] on numbers: [NaN] equals nothing, [+0] equals [-0]. *)
Definition strict_eq (x y : number) : bool := SFeqb x y.

(** [x !== y]. *)
Definition strict_ne (x y : number) : bool := negb (strict_eq x y).

(** ToBoolean on a number: [+0], [-0] and [NaN] are falsy. *)
Definition number_truthy (x : number) : bool :=
  match x with
  | S754_zero _ | S754_nan => false
  | _ => true
  end.

(** ToBoolean on a string: only the empty string is falsy. *)
Definition string_truthy (s : string) : bool :=
  match s with
  | EmptyString => false
  | String _ _ => true
  end.

(** [Boolean(s)] for a string [s]. *)
Definition Boolean (s : string) : bool := string_truthy s.

(** [String(b)] for a boolean [b]. *)
Definition BooleanToString (b : bool) : string := if b then "true" else "false".

(** ** [Number(s)]: StringToNumber *)

Definition code (c : ascii) : Z := Z.of_N (N_of_ascii c).

(** White space and line terminators among the code units below 256. *)
Definition is_ws (c : ascii) : bool :=
  let n := code c in
  ((9 <=? n) && (n <=? 13)) || (n =? 32) || (n =? 160).

Definition is_digit (c : ascii) : bool := (48 <=? code c) && (code c <=? 57).

Definition hex_val (c : ascii) : option Z :=
  let n := code c in
  if (48 <=? n) && (n <=? 57) then Some (n - 48)
  else if (65 <=? n) && (n <=? 70) then Some (n - 55)
  else if (97 <=? n) && (n <=? 102) then Some (n - 87)
  else None.

Fixpoint drop_ws (l : list ascii) : list ascii :=
  match l with
  | c :: r => if is_ws c then drop_ws r else l
  | [] => []
  end.

Definition trim (l : list ascii) : list ascii := rev (drop_ws (rev (drop_ws l))).

Fixpoint span_digits (l : list ascii) : list ascii * list ascii :=
  match l with
  | c :: r =>
      if is_digit c then let '(ds, rest) := span_digits r in (c :: ds, rest)
      else ([], l)
  | [] => ([], [])
  end.

Definition digits_value (ds : list ascii) : Z :=
  fold_left (fun acc c => 10 * acc + (code c - 48)) ds 0.

Fixpoint radix_value (radix : Z) (acc : Z) (l : list ascii) : option Z :=
  match l with
  | [] => Some acc
  | c :: r =>
      match hex_val c with
      | Some d => if d <? radix then radix_value radix (radix * acc + d) r else None
      | None => None
      end
  end.

(** ExponentPart, optional: [e] or [E], an optional sign, digits. *)
Definition exponent_part (l : list ascii) : option Z :=
  match l with
  | [] => Some 0
  | c :: r =>
      if (code c =? 101) || (code c =? 69) then
        let '(neg, r') :=
          match r with
          | s :: t => if code s =? 43 then (false, t)
                      else if code s =? 45 then (true, t) else (false, r)
          | [] => (false, r)
          end in
        match span_digits r' with
        | (d :: ds, []) => Some (if neg then - digits_value (d :: ds) else digits_value (d :: ds))
        | _ => None
        end
      else None
  end.

(** StrUnsignedDecimalLiteral: [Infinity], or digits with an optional
    fraction and exponent; at least one digit before the exponent. *)
Definition unsigned_decimal (neg : bool) (l : list ascii) : number :=
  if String.eqb (string_of_list_ascii l) "Infinity" then S754_infinity neg
  else
    let '(ip, r1) := span_digits l in
    let '(fp, r2) :=
      match r1 with
      | c :: r => if code c =? 46 then span_digits r else ([], r1)
      | [] => ([], r1)
      end in
    match ip ++ fp with
    | [] => NaN
    | ds =>
        match exponent_part r2 with
        | Some e => of_decimal neg (digits_value ds) (e - Z.of_nat (length fp))
        | None => NaN
        end
    end.

(** NonDecimalIntegerLiteral: [0x], [0o] or [0b] and digits of that radix;
    [None] when the text has no such prefix. *)
Definition non_decimal (l : list ascii) : option number :=
  match l with
  | z :: p :: d :: ds =>
      if code z =? 48 then
        let radix :=
          if (code p =? 120) || (code p =? 88) then Some 16
          else if (code p =? 111) || (code p =? 79) then Some 8
          else if (code p =? 98) || (code p =? 66) then Some 2
          else None in
        match radix with
        | Some b => Some (match radix_value b 0 (d :: ds) with
                          | Some v => of_Z v
                          | None => NaN
                          end)
        | None => None
        end
      else None
  | _ => None
  end.

Definition StringToNumber (s : string) : number :=
  match trim (list_ascii_of_string s) with
  | [] => S754_zero false
  | c :: r =>
      match non_decimal (c :: r) with
      | Some v => v
      | None =>
          if code c =? 43 then unsigned_decimal false r
          else if code c =? 45 then unsigned_decimal true r
          else unsigned_decimal false (c :: r)
      end
  end.

(** [Number(s)] for a string [s]. *)
Definition Number (s : string) : number := StringToNumber s.

(** ** [String(x)] for a number [x]: Number::toString in radix 10 *)

Definition dec (z : Z) : string := NilZero.string_of_uint (N.to_uint (Z.to_N z)).

Fixpoint digits10_aux (fuel : nat) (q : Z) : Z :=
  match fuel with
  | O => 0
  | S f => if q <=? 0 then 0 else 1 + digits10_aux f (q / 10)
  end.

(** The number of decimal digits of [q], [0] for [q <= 0]. *)
Definition digits10 (q : Z) : Z := digits10_aux (S (Z.to_nat (Z.log2 q))) q.

(** The [n] with [10^(n-1) <= N/D < 10^n], for positive [N] and [D]. *)
Definition magnitude10 (N D : Z) : Z :=
  if D <=? N then digits10 (N / D) else 1 - digits10 ((D - 1) / N).

Definition number_eqb (x y : number) : bool :=
  match x, y with
  | S754_zero a, S754_zero b => Bool.eqb a b
  | S754_infinity a, S754_infinity b => Bool.eqb a b
  | S754_nan, S754_nan => true
  | S754_finite a m e, S754_finite b m' e' => Bool.eqb a b && (Pos.eqb m m') && (e =? e')
  | _, _ => false
  end.

(** The decimals [s * 10^(n-k)] of [k] digits next to [x = N/D] from below
    and from above: the one that reads back as [x] (the nearer one when
    both do), and the nearer one whether it reads back or not. *)
Definition candidate (x : number) (N D n0 k : Z) : option (Z * Z) * (Z * Z) :=
  let p := n0 - k in
  let num := if 0 <=? p then N else N * 10 ^ (- p) in
  let den := if 0 <=? p then D * 10 ^ p else D in
  let lo := num / den in
  let r := num mod den in
  let hi := lo + 1 in
  let ok s := number_eqb (of_decimal false s p) x in
  let pick s := if s =? 10 ^ k then (s / 10, n0 + 1) else (s, n0) in
  let nearest :=
    match 2 * r ?= den with
    | Lt => lo
    | Gt => hi
    | Eq => if Z.even lo then lo else hi
    end in
  (match ok lo, ok hi with
   | true, true => Some (pick nearest)
   | true, false => Some (pick lo)
   | false, true => Some (pick hi)
   | false, false => None
   end, pick nearest).

(** The digits [s] and the decimal exponent [n] of the shortest decimal
    that reads back as [x], trying [k], [k + 1], ... digits; seventeen
    digits identify any binary64 value. *)
Fixpoint shortest (fuel : nat) (x : number) (N D n0 k : Z) : Z * Z :=
  match fuel with
  | O => snd (candidate x N D n0 k)
  | S f =>
      match fst (candidate x N D n0 k) with
      | Some r => r
      | None => shortest f x N D n0 (k + 1)
      end
  end.

Definition zeros (n : Z) : string := string_of_list_ascii (repeat "0"%char (Z.to_nat n)).

(** The text of [s * 10^(n-k)], [k] the number of digits of [s]: plain
    decimal notation for [-5 <= n <= 21], exponent notation otherwise. *)
Definition format (s n : Z) : string :=
  let ds := dec s in
  let k := Z.of_nat (String.length ds) in
  if (-5 <=? n) && (n <=? 21) then
    if k <=? n then ds +:+ zeros (n - k)
    else if 0 <? n then
      substring 0 (Z.to_nat n) ds +:+ "." +:+ substring (Z.to_nat n) (Z.to_nat (k - n)) ds
    else "0." +:+ zeros (- n) +:+ ds
  else
    let e := n - 1 in
    let es := (if 0 <=? e then "+" else "-") +:+ dec (Z.abs e) in
    if k =? 1 then ds +:+ "e" +:+ es
    else substring 0 1 ds +:+ "." +:+ substring 1 (Z.to_nat (k - 1)) ds +:+ "e" +:+ es.

Definition positive_to_string (m : positive) (e : Z) : string :=
  let N := if 0 <=? e then Zpos m * 2 ^ e else Zpos m in
  let D := if 0 <=? e then 1 else 2 ^ (- e) in
  let n0 := magnitude10 N D in
  let '(s, n) := shortest 16 (S754_finite false m e) N D n0 1 in
  format s n.

Definition NumberToString (x : number) : string :=
  match x with
  | S754_nan => "NaN"
  | S754_zero _ => "0"
  | S754_infinity false => "Infinity"
  | S754_infinity true => "-Infinity"
  | S754_finite false m e => positive_to_string m e
  | S754_finite true m e => "-" +:+ positive_to_string m e
  end.

(** ** Objects and [JSON.stringify] *)

(** The primitive values held by the properties of the action's objects. *)
Inductive value :=
  | VString (s : string)
  | VNumber (n : number)
  | VBoolean (b : bool).

(** An object: its own enumerable properties in creation order. *)
Definition object := list (string * value).

Definition quote : string := String "034"%char EmptyString.
Definition backslash : string := String "092"%char EmptyString.

Definition hex_digit (d : Z) : ascii :=
  ascii_of_N (Z.to_N (if d <? 10 then 48 + d else 87 + d)).

(** QuoteJSONString on one code unit. *)
Definition json_escape (c : ascii) : string :=
  let n := code c in
  if n =? 8 then backslash +:+ "b"
  else if n =? 9 then backslash +:+ "t"
  else if n =? 10 then backslash +:+ "n"
  else if n =? 12 then backslash +:+ "f"
  else if n =? 13 then backslash +:+ "r"
  else if n =? 34 then backslash +:+ quote
  else if n =? 92 then backslash +:+ backslash
  else if n <? 32 then
    backslash +:+ "u00" +:+ String (hex_digit (n / 16)) (String (hex_digit (n mod 16)) EmptyString)
  else String c EmptyString.

Fixpoint json_escape_all (s : string) : string :=
  match s with
  | EmptyString => EmptyString
  | String c r => json_escape c +:+ json_escape_all r
  end.

Definition json_string (s : string) : string := quote +:+ json_escape_all s +:+ quote.

(** SerializeJSONProperty on a primitive: a number that is not finite is
    written [null]. *)
Definition json_value (v : value) : string :=
  match v with
  | VString s => json_string s
  | VNumber (S754_nan | S754_infinity _) => "null"
  | VNumber n => NumberToString n
  | VBoolean b => BooleanToString b
  end.

Fixpoint json_members (o : object) : string :=
  match o with
  | [] => EmptyString
  | [(k, v)] => json_string k +:+ ":" +:+ json_value v
  | (k, v) :: r => json_string k +:+ ":" +:+ json_value v +:+ "," +:+ json_members r
  end.

(** [JSON.stringify(o)] for an object [o] of primitives, without indent. *)
Definition stringify (o : object) : string := "{" +:+ json_members o +:+ "}".

End JS.

Import JS.

(** * The data of [appetize.ts] *)

(** A JavaScript [Error] with its message. *)
Record Error := { message : string }.

(** The outcome of a call: a value, or the error it threw. *)
Inductive completion (A : Type) :=
  | Normal (a : A)
  | Throw (e : Error).
Arguments Normal {A} a.
Arguments Throw {A} e.

(** The errors [appetize.ts] throws, under the names of the error taxonomy. *)
Definition InvalidPlatform : Error :=
  {| message := "Platform must be either ios or android" |}.
Definition MissingSource : Error :=
  {| message := "Either appFile or appUrl must be specified" |}.
Definition InvalidFileType : Error :=
  {| message := "FileType must be either apk, zip, or tar.gz" |}.
Definition InvalidTimeout : Error :=
  {| message := "Timeout must be either 30, 60, 120, 180, 300, 600, 1800, 3600, or 7200" |}.

(** [interface InputData]. *)
Record InputData := {
  apiHost : string;
  apiToken : string;
  publicKey : string;
  platform : string;
  appFile : string;
  appUrl : string;
  fileType : string;
  note : string;
  timeout : number;
  disabled : bool;
  disableHome : bool;
  useLastFrame : bool;
  buttonText : string;
  postSessionButtonText : string;
  launchUrl : string
}.

(** [interface UrlData]. *)
Module UrlData.
Record t := {
  url : string;
  platform : string;
  fileType : string;
  note : string;
  timeout : number;
  disabled : bool;
  disableHome : bool;
  useLastFrame : bool;
  buttonText : string;
  postSessionButtonText : string;
  launchUrl : string
}.

(** The object a [UrlData] is at run time: the properties of the object
    literal of [urlData], in its order. *)
Definition properties (u : t) : object :=
  [ ("url", VString (url u));
    ("platform", VString (platform u));
    ("fileType", VString (fileType u));
    ("note", VString (note u));
    ("timeout", VNumber (timeout u));
    ("disabled", VBoolean (disabled u));
    ("disableHome", VBoolean (disableHome u));
    ("useLastFrame", VBoolean (useLastFrame u));
    ("buttonText", VString (buttonText u));
    ("postSessionButtonText", VString (postSessionButtonText u));
    ("launchUrl", VString (launchUrl u)) ].
End UrlData.

(** [interface OutputData]. *)
Module OutputData.
Record t := { publicKey : string }.
End OutputData.

(** The object an [InputData] is at run time: the properties of the object
    literal of [getInputs], in its order. *)
Definition properties (c : InputData) : object :=
  [ ("apiHost", VString (apiHost c));
    ("apiToken", VString (apiToken c));
    ("publicKey", VString (publicKey c));
    ("platform", VString (platform c));
    ("appFile", VString (appFile c));
    ("appUrl", VString (appUrl c));
    ("fileType", VString (fileType c));
    ("note", VString (note c));
    ("timeout", VNumber (timeout c));
    ("disabled", VBoolean (disabled c));
    ("disableHome", VBoolean (disableHome c));
    ("useLastFrame", VBoolean (useLastFrame c));
    ("buttonText", VString (buttonText c));
    ("postSessionButtonText", VString (postSessionButtonText c));
    ("launchUrl", VString (launchUrl c)) ].

(** A value appended to a multipart form: the read stream
    [createReadStream(path)] opens, or a text. *)
Inductive FormValue :=
  | ReadStream (path : string)
  | Text (value : string).

(** A [FormData] of the form-data package: its fields in the order they
    were appended. *)
Definition FormData := list (string * FormValue).

(** [form.append(key, value)]. *)
Definition append (key : string) (value : FormValue) (form : FormData) : FormData :=
  form ++ [(key, value)].

(** Modelled from the spec: [appendOptional] of the class
    [OptionalFormData] of [./optionalformdata], a file that is not among
    the sources. The spec words it as: optional field append only if
    non-empty. The field is appended when the text it is given is not
    empty, and the form is left as it is otherwise. *)
Definition appendOptional (key value : string) (form : FormData) : FormData :=
  if string_truthy value then append key (Text value) form else form.

(** What [data.getHeaders()] returns for a form: the multipart content
    type with the boundary of that form, left uninterpreted. *)
Inductive Headers := FormHeaders (form : FormData).

Definition getHeaders (form : FormData) : Headers := FormHeaders form.

(** [FormData | UrlData], the body of the request. *)
Inductive Body :=
  | FileBody (form : FormData)
  | UrlBody (data : UrlData.t).

(** * The functions of [appetize.ts] *)

Definition apiVersion : string := "v1".

(** [getInputs], with [core.getInput] of the hosting environment as an
    argument. *)
Definition getInputs (getInput : string -> string) : InputData :=
  {| apiHost := getInput "apiHost";
     apiToken := getInput "apiToken";
     publicKey := getInput "publicKey";
     platform := getInput "platform";
     appFile := getInput "appFile";
     appUrl := getInput "appUrl";
     fileType := getInput "fileType";
     note := getInput "note";
     timeout := Number (getInput "timeout");
     disabled := Boolean (getInput "disabled");
     disableHome := Boolean (getInput "disableHome");
     useLastFrame := Boolean (getInput "useLastFrame");
     buttonText := getInput "buttonText";
     postSessionButtonText := getInput "postSessionButtonText";
     launchUrl := getInput "launchUrl" |}.

(** [a !== b] on strings. *)
Definition string_ne (a b : string) : bool := negb (String.eqb a b).

(** [validateInputData]. *)
Definition validateInputData (input : InputData) : completion unit :=
  if string_ne (platform input) "ios" && string_ne (platform input) "android" then
    Throw {| message := "Platform must be either ios or android" |}
  else if negb (string_truthy (appFile input)) && negb (string_truthy (appUrl input)) then
    Throw {| message := "Either appFile or appUrl must be specified" |}
  else if string_truthy (fileType input) &&
          string_ne (fileType input) "apk" &&
          string_ne (fileType input) "zip" &&
          string_ne (fileType input) "tar.gz" then
    Throw {| message := "FileType must be either apk, zip, or tar.gz" |}
  else if number_truthy (timeout input) &&
          strict_ne (timeout input) (of_Z 30) &&
          strict_ne (timeout input) (of_Z 60) &&
          strict_ne (timeout input) (of_Z 120) &&
          strict_ne (timeout input) (of_Z 180) &&
          strict_ne (timeout input) (of_Z 300) &&
          strict_ne (timeout input) (of_Z 600) &&
          strict_ne (timeout input) (of_Z 1800) &&
          strict_ne (timeout input) (of_Z 3600) &&
          strict_ne (timeout input) (of_Z 7200) then
    Throw {| message := "Timeout must be either 30, 60, 120, 180, 300, 600, 1800, 3600, or 7200" |}
  else Normal tt.

(** [url], reading the module-level [inputs]. *)
Definition url (inputs : InputData) : string :=
  let baseUrl := apiHost inputs +:+ "/" +:+ apiVersion +:+ "/apps/" in
  if string_truthy (publicKey inputs) then baseUrl +:+ publicKey inputs
  else baseUrl.

(** [fileData], reading the module-level [inputs]. *)
Definition fileData (inputs : InputData) : FormData :=
  let form : FormData := [] in
  let form := append "file" (ReadStream (appFile inputs)) form in
  let form := append "platform" (Text (platform inputs)) form in
  let form := appendOptional "fileType" (fileType inputs) form in
  let form := appendOptional "note" (note inputs) form in
  let form := appendOptional "timeout" (NumberToString (timeout inputs)) form in
  let form := appendOptional "disabled" (BooleanToString (disabled inputs)) form in
  let form := appendOptional "disableHome" (BooleanToString (disableHome inputs)) form in
  let form := appendOptional "useLastFrame" (BooleanToString (useLastFrame inputs)) form in
  let form := appendOptional "buttonText" (buttonText inputs) form in
  let form := appendOptional "postSessionButtonText" (postSessionButtonText inputs) form in
  let form := appendOptional "launchUrl" (launchUrl inputs) form in
  form.

(** [urlData], reading the module-level [inputs]. *)
Definition urlData (inputs : InputData) : UrlData.t :=
  {| UrlData.url := appUrl inputs;
     UrlData.platform := platform inputs;
     UrlData.fileType := fileType inputs;
     UrlData.note := note inputs;
     UrlData.timeout := timeout inputs;
     UrlData.disabled := disabled inputs;
     UrlData.disableHome := disableHome inputs;
     UrlData.useLastFrame := useLastFrame inputs;
     UrlData.buttonText := buttonText inputs;
     UrlData.postSessionButtonText := postSessionButtonText inputs;
     UrlData.launchUrl := launchUrl inputs |}.

(** [dataAndHeaders], reading the module-level [inputs]; [None] is the
    [undefined] headers of the URL variant. *)
Definition dataAndHeaders (inputs : InputData) : completion (Body * option Headers) :=
  if string_truthy (appFile inputs) then
    let data := fileData inputs in
    Normal (FileBody data, Some (getHeaders data))
  else if string_truthy (appUrl inputs) then
    Normal (UrlBody (urlData inputs), None)
  else Throw {| message := "Either appFile or appUrl must be specified" |}.

(** * The upload step and its effects *)

(** References to objects. *)
Definition loc := positive.

(** The [auth] option of an axios request. *)
Record BasicCredentials := { username : string; password : string }.

(** The options [uploadBuild] passes to [axios.post]. *)
Record AxiosRequestConfig := {
  auth : BasicCredentials;
  headers : option Headers;
  maxContentLength : number;
  maxBodyLength : number
}.

(** One call of [axios.post]. *)
Record Request := {
  address : string;
  body : Body;
  config : AxiosRequestConfig
}.

(** The part of an axios response [uploadBuild] reads. *)
Module Response.
Record t := { data : OutputData.t }.
End Response.

(** What the upload step reads and changes: the objects of the store, the
    lines given to [core.info], and the requests handed to the transport. *)
Record World := {
  heap : gmap loc InputData;
  output : list string;
  requests : list Request
}.

(** Computations over the world: [None] is a read through a reference
    that holds no object, which no run from a loaded module meets. *)
Definition M (A : Type) : Type := World -> option (completion A * World).

#[global] Instance M_ret : MRet M := fun A a w => Some (Normal a, w).

#[global] Instance M_bind : MBind M := fun A B f m w =>
  match m w with
  | Some (Normal a, w') => f a w'
  | Some (Throw e, w') => Some (Throw e, w')
  | None => None
  end.

(** A pure call that may throw. *)
Definition lift {A : Type} (c : completion A) : M A := fun w => Some (c, w).

(** Reading the object behind a reference. *)
Definition deref (r : loc) : M InputData := fun w =>
  match heap w !! r with
  | Some o => Some (Normal o, w)
  | None => None
  end.

(** [{...o}]: a new object with the properties of the object behind [r]. *)
Definition spread (r : loc) : M loc := fun w =>
  match heap w !! r with
  | Some o =>
      let r' := fresh (dom (heap w)) in
      Some (Normal r', {| heap := <[r' := o]> (heap w);
                          output := output w;
                          requests := requests w |})
  | None => None
  end.

(** The object [o] with [v] as its token and every other property as it
    is. *)
Definition set_apiToken (v : string) (o : InputData) : InputData :=
  {| apiHost := apiHost o;
     apiToken := v;
     publicKey := publicKey o;
     platform := platform o;
     appFile := appFile o;
     appUrl := appUrl o;
     fileType := fileType o;
     note := note o;
     timeout := timeout o;
     disabled := disabled o;
     disableHome := disableHome o;
     useLastFrame := useLastFrame o;
     buttonText := buttonText o;
     postSessionButtonText := postSessionButtonText o;
     launchUrl := launchUrl o |}.

(** [r.apiToken = v]: the object behind [r] is changed in place. *)
Definition assign_apiToken (r : loc) (v : string) : M unit := fun w =>
  match heap w !! r with
  | Some o =>
      Some (Normal tt, {| heap := <[r := set_apiToken v o]> (heap w);
                          output := output w;
                          requests := requests w |})
  | None => None
  end.

(** [core.info(line)]. *)
Definition info (line : string) : M unit := fun w =>
  Some (Normal tt, {| heap := heap w;
                      output := output w ++ [line];
                      requests := requests w |}).

Section Upload.

(** The HTTP transport behind [axios.post]: the response to a request, or
    the error it is rejected with. *)
Variable transport : Request -> completion Response.t.

(** The reference held by the module-level constant [inputs]. *)
Variable inputs : loc.

(** [await axios.post(address, body, config)]. *)
Definition axios_post (address : string) (body : Body) (config : AxiosRequestConfig) :
    M Response.t := fun w =>
  let request := {| address := address; body := body; config := config |} in
  Some (transport request, {| heap := heap w;
                              output := output w;
                              requests := requests w ++ [request] |}).

(** [uploadBuild]. *)
Definition uploadBuild : M OutputData.t :=
  (input ← deref inputs; lift (validateInputData input));;
  '(data, headers) ← (c ← deref inputs; lift (dataAndHeaders c));
  address ← (c ← deref inputs; mret (url c));
  info ("Uploading build to " +:+ address);;
  info "Attached scrubbed build info:";;
  scrubbedInputs ← spread inputs;
  assign_apiToken scrubbedInputs "scrubbed";;
  scrubbed ← deref scrubbedInputs;
  info (stringify (properties scrubbed));;
  address ← (c ← deref inputs; mret (url c));
  token ← (c ← deref inputs; mret (apiToken c));
  response ← axios_post address data
    {| auth := {| username := token; password := "" |};
       headers := headers;
       maxContentLength := Infinity;
       maxBodyLength := Infinity |};
  mret (Response.data response).

End Upload.

(** * Vocabulary of the statements *)

#[global] Instance number_eq_dec : EqDecision number.
Proof. solve_decision. Defined.

Definition is_finite (y : number) : Prop :=
  match y with
  | S754_finite _ _ _ => True
  | _ => False
  end.

Definition is_zero (x : number) : bool :=
  match x with
  | S754_zero _ => true
  | _ => false
  end.

(** The timeouts the validator accepts, in seconds. *)
Definition allowed_timeouts : list number :=
  map of_Z [30; 60; 120; 180; 300; 600; 1800; 3600; 7200].

Definition valid_platform (c : InputData) : Prop :=
  platform c = "ios" \/ platform c = "android".

Definition has_source (c : InputData) : Prop :=
  appFile c <> "" \/ appUrl c <> "".

Definition valid_fileType (c : InputData) : Prop :=
  fileType c = "" \/ fileType c = "apk" \/ fileType c = "zip" \/ fileType c = "tar.gz".

(** The fields [appendOptional] adds for a text. *)
Definition optional (key value : string) : FormData :=
  if string_truthy value then [(key, Text value)] else [].

(** The object [uploadBuild] prints: the copy of the inputs after the
    assignment to its token. *)
Definition scrubbedInputs (c : InputData) : InputData := set_apiToken "scrubbed" c.

(** The lines [uploadBuild] gives to [core.info]. *)
Definition diagnostics (c : InputData) : list string :=
  [ "Uploading build to " +:+ url c;
    "Attached scrubbed build info:";
    stringify (properties (scrubbedInputs c)) ].

(** The request [uploadBuild] hands to the transport. *)
Definition request_of (c : InputData) (data : Body) (headers : option Headers) : Request :=
  {| address := url c;
     body := data;
     config := {| auth := {| username := apiToken c; password := "" |};
                  headers := headers;
                  maxContentLength := Infinity;
                  maxBodyLength := Infinity |} |}.

(** What [uploadBuild] returns for an outcome of the transport. *)
Definition relay (r : completion Response.t) : completion OutputData.t :=
  match r with
  | Normal response => Normal (Response.data response)
  | Throw e => Throw e
  end.

(** The world in which the object behind [inputs] holds another token. *)
Definition store_token (inputs : loc) (token : string) (w : World) : World :=
  {| heap := alter (set_apiToken token) inputs (heap w);
     output := output w;
     requests := requests w |}.

(** The lines printed by a run. *)
Definition printed (r : option (completion OutputData.t * World)) : list string :=
  match r with
  | Some (_, w) => output w
  | None => []
  end.

(** [needle] occurs in [hay]. *)
Definition occurs_in (needle hay : string) : bool :=
  match index 0 needle hay with
  | Some _ => true
  | None => false
  end.

(** ** Sample configurations *)

(** A file upload with every optional input left unset. *)
Definition file_upload : InputData :=
  {| apiHost := "https://api.example.com"; apiToken := "tok"; publicKey := "";
     platform := "android"; appFile := "app.apk"; appUrl := "";
     fileType := ""; note := ""; timeout := Number "";
     disabled := Boolean ""; disableHome := Boolean ""; useLastFrame := Boolean "";
     buttonText := ""; postSessionButtonText := ""; launchUrl := "" |}.

(** An update of the app [abc123] from a remote file. *)
Definition url_upload : InputData :=
  {| apiHost := "https://api.example.com"; apiToken := "tok"; publicKey := "abc123";
     platform := "android"; appFile := ""; appUrl := "https://files/app.apk";
     fileType := "apk"; note := ""; timeout := Number "60";
     disabled := Boolean ""; disableHome := Boolean ""; useLastFrame := Boolean "";
     buttonText := ""; postSessionButtonText := ""; launchUrl := "" |}.

(** Inputs with no source, a file type and a timeout outside the lists. *)
Definition no_source : InputData :=
  {| apiHost := "https://api.example.com"; apiToken := "tok"; publicKey := "";
     platform := "ios"; appFile := ""; appUrl := "";
     fileType := "exe"; note := ""; timeout := Number "45";
     disabled := Boolean ""; disableHome := Boolean ""; useLastFrame := Boolean "";
     buttonText := ""; postSessionButtonText := ""; launchUrl := "" |}.

Definition with_platform (p : string) (c : InputData) : InputData :=
  {| apiHost := apiHost c; apiToken := apiToken c; publicKey := publicKey c;
     platform := p; appFile := appFile c; appUrl := appUrl c;
     fileType := fileType c; note := note c; timeout := timeout c;
     disabled := disabled c; disableHome := disableHome c;
     useLastFrame := useLastFrame c; buttonText := buttonText c;
     postSessionButtonText := postSessionButtonText c; launchUrl := launchUrl c |}.

Definition with_timeout (t : number) (c : InputData) : InputData :=
  {| apiHost := apiHost c; apiToken := apiToken c; publicKey := publicKey c;
     platform := platform c; appFile := appFile c; appUrl := appUrl c;
     fileType := fileType c; note := note c; timeout := t;
     disabled := disabled c; disableHome := disableHome c;
     useLastFrame := useLastFrame c; buttonText := buttonText c;
     postSessionButtonText := postSessionButtonText c; launchUrl := launchUrl c |}.

(** The options of the end-to-end scenario: a remote android build, file
    type apk, timeout 60, no public key; every other option is unset. *)
Definition scenario (name : string) : string :=
  if String.eqb name "apiHost" then "https://api.example.com"
  else if String.eqb name "apiToken" then "tok"
  else if String.eqb name "platform" then "android"
  else if String.eqb name "appUrl" then "https://files/app.apk"
  else if String.eqb name "fileType" then "apk"
  else if String.eqb name "timeout" then "60"
  else "".

(** The world of a module just loaded: [inputs] is the only object, behind
    the reference [1]. *)
Definition loaded (c : InputData) : World :=
  {| heap := {[ 1%positive := c ]}; output := []; requests := [] |}.

(** A transport that accepts every upload under the public key [xyz]. *)
Definition accept (r : Request) : completion Response.t :=
  Normal {| Response.data := {| OutputData.publicKey := "xyz" |} |}.


(** The options [getInput] with the option [name] set to [value]. *)
Definition set_option (name value : string) (getInput : string -> string) :
    string -> string :=
  fun k => if String.eqb k name then value else getInput k.

Definition with_appUrl (u : string) (c : InputData) : InputData :=
  {| apiHost := apiHost c; apiToken := apiToken c; publicKey := publicKey c;
     platform := platform c; appFile := appFile c; appUrl := u;
     fileType := fileType c; note := note c; timeout := timeout c;
     disabled := disabled c; disableHome := disableHome c;
     useLastFrame := useLastFrame c; buttonText := buttonText c;
     postSessionButtonText := postSessionButtonText c; launchUrl := launchUrl c |}.

Ltac passes lemma H :=
  let E := fresh "E" in
  pose proof (proj2 lemma H) as E; rewrite E; clear E.

(** * Properties *)

(** ** Truthiness and strict equality *)

Lemma string_truthy_true (s : string) : string_truthy s = true <-> s <> "".
Proof. destruct s; simpl; split; congruence. Qed.

Lemma string_truthy_false (s : string) : string_truthy s = false <-> s = "".
Proof. destruct s; simpl; split; congruence. Qed.

Lemma string_ne_true (a b : string) : string_ne a b = true <-> a <> b.
Proof.
  unfold string_ne. destruct (String.eqb_spec a b); simpl; split; congruence.
Qed.

Lemma string_ne_false (a b : string) : string_ne a b = false <-> a = b.
Proof.
  unfold string_ne. destruct (String.eqb_spec a b); simpl; split; congruence.
Qed.

(** Strict equality with a finite number other than zero is equality of
    the two values. *)
Lemma strict_eq_finite (x : number) (s : bool) (m : positive) (e : Z) :
  strict_eq x (S754_finite s m e) = true <-> x = S754_finite s m e.
Proof.
  unfold strict_eq, SFeqb. split.
  - destruct x as [ | [] | | s' m' e']; simpl; try (destruct s; discriminate).
    change (Pos.compare_cont Eq m' m) with (Pos.compare m' m).
    destruct s', s; try discriminate;
      destruct (Z.compare_spec e' e); try discriminate;
      destruct (Pos.compare_spec m' m); simpl; try discriminate; congruence.
  - intros ->. simpl. rewrite Z.compare_refl.
    change (Pos.compare_cont Eq m m) with (Pos.compare m m).
    rewrite Pos.compare_refl. simpl. now destruct s.
Qed.

Lemma strict_ne_true (x y : number) :
  is_finite y -> strict_ne x y = true <-> x <> y.
Proof.
  destruct y as [ | | | s m e]; simpl; try tauto. intros _.
  unfold strict_ne. rewrite negb_true_iff, <- not_true_iff_false.
  now rewrite strict_eq_finite.
Qed.

(** ** The numeric conversions on sample texts *)

(** [Number] on texts of the timeout option: the empty text and blanks
    are zero, the decimal, exponent and hexadecimal spellings of thirty
    are one number, a text that is no numeric literal is [NaN], and a
    decimal is rounded to the nearest binary64 value. *)
Example Number_samples :
  Number "" = S754_zero false /\
  Number "   " = S754_zero false /\
  Number "-0" = S754_zero true /\
  Number " 30 " = of_Z 30 /\
  Number "30.0" = of_Z 30 /\
  Number "3e1" = of_Z 30 /\
  Number "0x1e" = of_Z 30 /\
  Number "30.000000000000000001" = of_Z 30 /\
  Number "9007199254740993" = of_Z 9007199254740992 /\
  Number "1e-400" = S754_zero false /\
  Number "1e400" = Infinity /\
  Number "-Infinity" = S754_infinity true /\
  Number "abc" = NaN /\
  Number "30s" = NaN /\
  Number "1_000" = NaN /\
  Number "." = NaN.
Proof. repeat split; reflexivity. Qed.

(** The nine accepted timeouts are the numbers of their decimal texts. *)
Example allowed_timeouts_texts :
  map Number ["30"; "60"; "120"; "180"; "300"; "600"; "1800"; "3600"; "7200"]
    = allowed_timeouts.
Proof. reflexivity. Qed.

(** [String] on numbers: the shortest decimal that reads back, in plain
    notation up to twenty-one digits before the point and six zeros after
    it, in exponent notation beyond. *)
Example NumberToString_samples :
  NumberToString (Number "") = "0" /\
  NumberToString (Number "-0") = "0" /\
  NumberToString (Number "60") = "60" /\
  NumberToString (Number "7200") = "7200" /\
  NumberToString (Number "1.50") = "1.5" /\
  NumberToString (Number "-12.5e1") = "-125" /\
  NumberToString (Number "0.1") = "0.1" /\
  NumberToString (Number "0.30000000000000004") = "0.30000000000000004" /\
  NumberToString (Number "0.000001") = "0.000001" /\
  NumberToString (Number "0.0000001") = "1e-7" /\
  NumberToString (Number "100000000000000000000") = "100000000000000000000" /\
  NumberToString (Number "1000000000000000000000") = "1e+21" /\
  NumberToString (Number "123456789012345678901") = "123456789012345680000" /\
  NumberToString (Number "1.7976931348623157e308") = "1.7976931348623157e+308" /\
  NumberToString (Number "5e-324") = "5e-324" /\
  NumberToString (Number "abc") = "NaN" /\
  NumberToString (Number "-1e999") = "-Infinity".
Proof. repeat split; vm_compute; reflexivity. Qed.

(** ** The rules of the validator, one guard at a time *)

Lemma platform_guard (c : InputData) :
  string_ne (platform c) "ios" && string_ne (platform c) "android" = false <->
  valid_platform c.
Proof.
  unfold valid_platform.
  rewrite andb_false_iff, !string_ne_false. tauto.
Qed.

Lemma source_guard (c : InputData) :
  negb (string_truthy (appFile c)) && negb (string_truthy (appUrl c)) = false <->
  has_source c.
Proof.
  unfold has_source.
  rewrite andb_false_iff, !negb_false_iff, !string_truthy_true. tauto.
Qed.

Lemma fileType_guard (c : InputData) :
  string_truthy (fileType c) && string_ne (fileType c) "apk" &&
    string_ne (fileType c) "zip" && string_ne (fileType c) "tar.gz" = false <->
  valid_fileType c.
Proof.
  unfold valid_fileType.
  rewrite !andb_false_iff, !string_ne_false, string_truthy_false. tauto.
Qed.

(** The timeout rule fires on the numbers that are truthy and not listed. *)
Lemma timeout_guard (x : number) :
  number_truthy x &&
    strict_ne x (of_Z 30) && strict_ne x (of_Z 60) && strict_ne x (of_Z 120) &&
    strict_ne x (of_Z 180) && strict_ne x (of_Z 300) && strict_ne x (of_Z 600) &&
    strict_ne x (of_Z 1800) && strict_ne x (of_Z 3600) && strict_ne x (of_Z 7200) = true <->
  x <> NaN /\ is_zero x = false /\ ~ In x allowed_timeouts.
Proof.
  rewrite !andb_true_iff.
  rewrite !strict_ne_true by exact I.
  unfold allowed_timeouts. cbn [map In].
  assert (number_truthy x = true <-> x <> NaN /\ is_zero x = false) as ->.
  { unfold NaN. destruct x; simpl; intuition congruence. }
  intuition congruence.
Qed.

(** It lets through exactly [NaN], the zeros and the listed values. *)
Lemma timeout_guard_false (x : number) :
  number_truthy x &&
    strict_ne x (of_Z 30) && strict_ne x (of_Z 60) && strict_ne x (of_Z 120) &&
    strict_ne x (of_Z 180) && strict_ne x (of_Z 300) && strict_ne x (of_Z 600) &&
    strict_ne x (of_Z 1800) && strict_ne x (of_Z 3600) && strict_ne x (of_Z 7200) = false <->
  x = NaN \/ is_zero x = true \/ In x allowed_timeouts.
Proof.
  rewrite <- not_true_iff_false, timeout_guard.
  split.
  - intros H. destruct x as [s | s | | s m e]; simpl; auto.
    + destruct (in_dec number_eq_dec (S754_infinity s) allowed_timeouts) as [Hin | Hin];
        auto.
      exfalso. apply H. unfold NaN. intuition congruence.
    + destruct (in_dec number_eq_dec (S754_finite s m e) allowed_timeouts) as [Hin | Hin];
        auto.
      exfalso. apply H. unfold NaN. intuition congruence.
  - unfold NaN. intros [-> | [Hz | Hin]] (Hn & Hz' & Hin'); congruence.
Qed.

Lemma validateInputData_platform (c : InputData) :
  platform c <> "ios" -> platform c <> "android" ->
  validateInputData c = Throw InvalidPlatform.
Proof.
  intros H1 H2. unfold validateInputData.
  destruct (string_ne (platform c) "ios" && string_ne (platform c) "android") eqn:E.
  - reflexivity.
  - apply platform_guard in E. destruct E; contradiction.
Qed.

Lemma validateInputData_source (c : InputData) :
  valid_platform c -> appFile c = "" -> appUrl c = "" ->
  validateInputData c = Throw MissingSource.
Proof.
  intros Hp Hf Hu. unfold validateInputData.
  passes (platform_guard c) Hp.
  rewrite Hf, Hu. reflexivity.
Qed.

Lemma validateInputData_fileType (c : InputData) :
  valid_platform c -> has_source c -> ~ valid_fileType c ->
  validateInputData c = Throw InvalidFileType.
Proof.
  intros Hp Hs Ht. unfold validateInputData.
  passes (platform_guard c) Hp. passes (source_guard c) Hs.
  match goal with |- (if ?g then _ else _) = _ => destruct g eqn:E end.
  - reflexivity.
  - apply fileType_guard in E. contradiction.
Qed.

Lemma validateInputData_timeout (c : InputData) :
  valid_platform c -> has_source c -> valid_fileType c ->
  timeout c <> NaN -> is_zero (timeout c) = false -> ~ In (timeout c) allowed_timeouts ->
  validateInputData c = Throw InvalidTimeout.
Proof.
  intros Hp Hs Ht Hn Hz Hin. unfold validateInputData.
  passes (platform_guard c) Hp. passes (source_guard c) Hs.
  passes (fileType_guard c) Ht.
  passes (timeout_guard (timeout c)) (conj Hn (conj Hz Hin)).
  reflexivity.
Qed.

Lemma validateInputData_passes (c : InputData) :
  valid_platform c -> has_source c -> valid_fileType c ->
  timeout c = NaN \/ is_zero (timeout c) = true \/ In (timeout c) allowed_timeouts ->
  validateInputData c = Normal tt.
Proof.
  intros Hp Hs Ht Hx. unfold validateInputData.
  passes (platform_guard c) Hp. passes (source_guard c) Hs.
  passes (fileType_guard c) Ht.
  passes (timeout_guard_false (timeout c)) Hx.
  reflexivity.
Qed.

Lemma validateInputData_has_source (c : InputData) :
  validateInputData c = Normal tt -> has_source c.
Proof.
  unfold validateInputData. intros H.
  destruct (string_ne (platform c) "ios" && string_ne (platform c) "android");
    [discriminate | ].
  destruct (negb (string_truthy (appFile c)) && negb (string_truthy (appUrl c))) eqn:E;
    [discriminate | ].
  now apply source_guard.
Qed.

(** The builder does not throw on inputs the validator accepted. *)
Lemma validated_builds (c : InputData) :
  validateInputData c = Normal tt ->
  exists data headers, dataAndHeaders c = Normal (data, headers).
Proof.
  intros H. apply validateInputData_has_source in H.
  unfold dataAndHeaders.
  destruct (string_truthy (appFile c)) eqn:Ef; [eauto | ].
  destruct (string_truthy (appUrl c)) eqn:Eu; [eauto | ].
  apply string_truthy_false in Ef, Eu. destruct H; contradiction.
Qed.

(** A text that is not a number is read as [NaN], which the timeout rule
    lets through although it is no number of seconds. *)
Example validateInputData_NaN_timeout :
  Number "abc" = NaN /\
  validateInputData (with_timeout (Number "abc") url_upload) = Normal tt.
Proof. split; reflexivity. Qed.

(** ** The text of a number or of a boolean is never empty *)

Lemma dec_nonempty (z : Z) : exists a r, dec z = String a r.
Proof.
  unfold dec, NilZero.string_of_uint.
  destruct (N.to_uint (Z.to_N z)); simpl; eauto.
Qed.

Lemma app_truthy_l (a b : string) :
  string_truthy a = true -> string_truthy (a +:+ b) = true.
Proof. destruct a; simpl; congruence. Qed.

Lemma app_truthy_r (a b : string) :
  string_truthy b = true -> string_truthy (a +:+ b) = true.
Proof. destruct a, b; simpl; congruence. Qed.

Lemma format_nonempty (s n : Z) : string_truthy (format s n) = true.
Proof.
  unfold format. destruct (dec_nonempty s) as (a & r & ->).
  repeat match goal with |- context [if ?b then _ else _] => destruct b end;
    first [ now apply app_truthy_l | now apply app_truthy_r, app_truthy_l ].
Qed.

Lemma NumberToString_nonempty (x : number) : string_truthy (NumberToString x) = true.
Proof.
  destruct x as [s | [] | | [] m e]; simpl; try reflexivity;
    unfold positive_to_string;
    destruct (shortest _ _ _ _ _ _) as [s n]; apply format_nonempty.
Qed.

Lemma BooleanToString_nonempty (b : bool) : string_truthy (BooleanToString b) = true.
Proof. now destruct b. Qed.

(** ** The multipart form *)

Lemma appendOptional_app (key value : string) (form : FormData) :
  appendOptional key value form = form ++ optional key value.
Proof.
  unfold appendOptional, optional, append.
  destruct (string_truthy value); [reflexivity | now rewrite app_nil_r].
Qed.

(** The form of [fileData], field by field: the texts of the timeout and of
    the three flags are never empty, so these four fields are always sent;
    the five text options are sent when they are not empty. *)
Lemma fileData_fields (c : InputData) :
  fileData c =
    [("file", ReadStream (appFile c)); ("platform", Text (platform c))]
    ++ optional "fileType" (fileType c)
    ++ optional "note" (note c)
    ++ [("timeout", Text (NumberToString (timeout c)));
        ("disabled", Text (BooleanToString (disabled c)));
        ("disableHome", Text (BooleanToString (disableHome c)));
        ("useLastFrame", Text (BooleanToString (useLastFrame c)))]
    ++ optional "buttonText" (buttonText c)
    ++ optional "postSessionButtonText" (postSessionButtonText c)
    ++ optional "launchUrl" (launchUrl c).
Proof.
  unfold fileData. rewrite !appendOptional_app.
  unfold optional at 3 4 5 6.
  rewrite NumberToString_nonempty, !BooleanToString_nonempty.
  unfold append. simpl. rewrite <- !app_assoc. reflexivity.
Qed.

Lemma In_optional (key value k : string) (v : FormValue) :
  In (k, v) (optional key value) <-> k = key /\ v = Text value /\ value <> "".
Proof.
  unfold optional. destruct (string_truthy value) eqn:E.
  - apply string_truthy_true in E. simpl. intuition congruence.
  - apply string_truthy_false in E. simpl. intuition congruence.
Qed.

(** The form carries a note exactly when the note is not empty. *)
Lemma fileData_note (c : InputData) (v : FormValue) :
  In ("note", v) (fileData c) <-> v = Text (note c) /\ note c <> "".
Proof.
  rewrite fileData_fields, !in_app_iff, !In_optional. simpl.
  intuition (try discriminate; try congruence).
Qed.

(** ** One run of the upload step *)

Section Run.

Variable transport : Request -> completion Response.t.
Variable inputs : loc.

(** The reference of the copy is not the reference of the inputs. *)
Lemma fresh_ne (w : World) (c : InputData) :
  heap w !! inputs = Some c -> fresh (dom (heap w)) <> inputs.
Proof.
  intros H E. apply (is_fresh (dom (heap w))).
  rewrite E. apply elem_of_dom. eauto.
Qed.

(** A run from a world that holds the inputs never reads a missing
    object: it throws what the validator or the builder throws and leaves
    the world as it is, or it stores the scrubbed copy, prints the
    diagnostics, sends one request and relays the outcome. *)
Lemma uploadBuild_run (w : World) (c : InputData) :
  heap w !! inputs = Some c ->
  uploadBuild transport inputs w =
    match validateInputData c with
    | Throw e => Some (Throw e, w)
    | Normal _ =>
        match dataAndHeaders c with
        | Throw e => Some (Throw e, w)
        | Normal (data, headers) =>
            Some (relay (transport (request_of c data headers)),
                  {| heap := <[fresh (dom (heap w)) := scrubbedInputs c]> (heap w);
                     output := output w ++ diagnostics c;
                     requests := requests w ++ [request_of c data headers] |})
        end
    end.
Proof.
  intros Hc. pose proof (fresh_ne w c Hc) as Hne.
  unfold uploadBuild, mbind, M_bind, mret, M_ret, deref, lift.
  rewrite Hc. cbv beta iota.
  destruct (validateInputData c) as [[] | e]; [ | reflexivity].
  cbv beta iota. rewrite Hc. cbv beta iota.
  destruct (dataAndHeaders c) as [[data headers] | e]; [ | reflexivity].
  cbv beta iota.
  unfold info, spread, assign_apiToken, axios_post.
  repeat (progress (cbv beta iota zeta; cbn [heap output requests];
                    rewrite ?Hc, ?lookup_insert_eq, ?insert_insert_eq;
                    rewrite ?lookup_insert_ne by exact Hne)).
  unfold relay, request_of, diagnostics, scrubbedInputs.
  rewrite <- !app_assoc. cbn [app].
  destruct (transport _); reflexivity.
Qed.

End Run.

(** The end-to-end scenario: the inputs read from the options pass the
    validator, the request goes to the collection address with the object
    of [urlData] as body, no headers and the token as user name, and the
    public key the transport answers is the result. *)
Example end_to_end :
  validateInputData (getInputs scenario) = Normal tt /\
  exists w,
    uploadBuild accept 1%positive (loaded (getInputs scenario))
      = Some (Normal {| OutputData.publicKey := "xyz" |}, w) /\
    heap w !! 1%positive = Some (getInputs scenario) /\
    requests w =
      [ {| address := "https://api.example.com/v1/apps/";
           body := UrlBody {| UrlData.url := "https://files/app.apk";
                              UrlData.platform := "android";
                              UrlData.fileType := "apk";
                              UrlData.note := "";
                              UrlData.timeout := of_Z 60;
                              UrlData.disabled := false;
                              UrlData.disableHome := false;
                              UrlData.useLastFrame := false;
                              UrlData.buttonText := "";
                              UrlData.postSessionButtonText := "";
                              UrlData.launchUrl := "" |};
           config := {| auth := {| username := "tok"; password := "" |};
                        headers := None;
                        maxContentLength := Infinity;
                        maxBodyLength := Infinity |} |} ].
Proof.
  split; [reflexivity | ].
  rewrite (uploadBuild_run accept 1%positive (loaded (getInputs scenario))
             (getInputs scenario) eq_refl).
  eexists. split; [reflexivity | ]. split; reflexivity.
Qed.

(** * The claims *)

(** ** The timeout rule *)

(** C1, as amended. The timeout the validator checks is [Number] of the
    timeout option. When that option is the empty text the timeout is
    zero; a zero timeout never fails with [InvalidTimeout], and passes the
    whole validation when the platform, source and file-type rules pass.
    When those three rules pass, a timeout that is a number other than
    zero and other than the nine listed values fails with
    [InvalidTimeout]. *)
Theorem timeout_rule (getInput : string -> string) (c : InputData) :
  timeout (getInputs getInput) = Number (getInput "timeout") /\
  (getInput "timeout" = "" -> is_zero (timeout (getInputs getInput)) = true) /\
  (is_zero (timeout c) = true -> validateInputData c <> Throw InvalidTimeout) /\
  (is_zero (timeout c) = true ->
   valid_platform c -> has_source c -> valid_fileType c ->
   validateInputData c = Normal tt) /\
  (valid_platform c -> has_source c -> valid_fileType c ->
   timeout c <> NaN -> is_zero (timeout c) = false ->
   ~ In (timeout c) allowed_timeouts ->
   validateInputData c = Throw InvalidTimeout).
Proof.
  split; [reflexivity | ].
  split; [intros H; simpl; now rewrite H | ].
  split.
  { intros Hz. unfold validateInputData.
    assert (number_truthy (timeout c) = false) as ->
      by (destruct (timeout c); simpl in *; congruence).
    cbn [andb].
    repeat match goal with |- context [if ?b then _ else _] => destruct b end;
      discriminate. }
  split.
  - intros Hz Hp Hs Ht. apply validateInputData_passes; auto.
  - apply validateInputData_timeout.
Qed.

(** C1, witness: a remote upload with a timeout of 45 seconds fails with
    [InvalidTimeout]. *)
Lemma timeout_rule_witness :
  validateInputData (with_timeout (Number "45") url_upload) = Throw InvalidTimeout.
Proof.
  apply (timeout_rule (fun _ => "") (with_timeout (Number "45") url_upload)).
  - right; reflexivity.
  - right; discriminate.
  - right; left; reflexivity.
  - discriminate.
  - reflexivity.
  - vm_compute. intuition discriminate.
Defined.

(** C1, counterexample to the claim as stated: with the platform
    [windows] a timeout of 45 seconds, which is neither zero nor listed,
    fails with [InvalidPlatform] and not with [InvalidTimeout]. *)
Lemma timeout_rule_counterexample :
  is_zero (timeout (with_platform "windows" (with_timeout (Number "45") url_upload))) = false /\
  ~ In (timeout (with_platform "windows" (with_timeout (Number "45") url_upload)))
       allowed_timeouts /\
  validateInputData (with_platform "windows" (with_timeout (Number "45") url_upload))
    = Throw InvalidPlatform /\
  validateInputData (with_platform "windows" (with_timeout (Number "45") url_upload))
    <> Throw InvalidTimeout.
Proof.
  split; [reflexivity | ].
  split; [vm_compute; intuition discriminate | ].
  split; [reflexivity | discriminate].
Qed.

(** ** Optional fields of the multipart form *)

(** C2, the code at the failing input: with the timeout and the three
    flags unset, the inputs hold a zero timeout and three false flags and
    pass the validator, and the form still carries these four fields, as
    the texts 0 and false. *)
Theorem fileData_unset_options :
  timeout file_upload = S754_zero false /\
  disabled file_upload = false /\
  disableHome file_upload = false /\
  useLastFrame file_upload = false /\
  validateInputData file_upload = Normal tt /\
  fileData file_upload =
    [ ("file", ReadStream "app.apk"); ("platform", Text "android");
      ("timeout", Text "0"); ("disabled", Text "false");
      ("disableHome", Text "false"); ("useLastFrame", Text "false") ].
Proof. repeat split; reflexivity. Qed.

(** ** The target address *)

(** C4. The address is the host followed by [/v1/apps/] and by the public
    key when the public key is not empty, and the host followed by
    [/v1/apps/] when it is empty; so it is for the host
    [https://api.example.com] with the public key [abc123] and with none. *)
Theorem url_address (c : InputData) :
  (publicKey c <> "" -> url c = (apiHost c +:+ "/v1/apps/") +:+ publicKey c) /\
  (publicKey c = "" -> url c = apiHost c +:+ "/v1/apps/") /\
  (apiHost c = "https://api.example.com" -> publicKey c = "abc123" ->
   url c = "https://api.example.com/v1/apps/abc123") /\
  (apiHost c = "https://api.example.com" -> publicKey c = "" ->
   url c = "https://api.example.com/v1/apps/").
Proof.
  unfold url, apiVersion. repeat split.
  - intros H. apply string_truthy_true in H. now rewrite H.
  - intros ->. reflexivity.
  - intros -> ->. reflexivity.
  - intros -> ->. reflexivity.
Qed.

(** C4, witness: the two addresses of the example host. *)
Lemma url_address_witness :
  url url_upload = "https://api.example.com/v1/apps/abc123" /\
  url file_upload = "https://api.example.com/v1/apps/".
Proof.
  split.
  - apply (url_address url_upload); reflexivity.
  - apply (url_address file_upload); reflexivity.
Defined.

(** ** The two variants of the body *)

(** C5. The builder returns the multipart form of [fileData] exactly when
    the file path is not empty, whatever the remote URL is, and the object
    of [urlData] exactly when the file path is empty and the remote URL is
    not; it returns no other form and no other object. *)
Theorem dataAndHeaders_variant (c : InputData) :
  (appFile c <> "" <->
   dataAndHeaders c = Normal (FileBody (fileData c), Some (getHeaders (fileData c)))) /\
  (appFile c = "" /\ appUrl c <> "" <->
   dataAndHeaders c = Normal (UrlBody (urlData c), None)) /\
  (appFile c <> "" -> appUrl c <> "" ->
   dataAndHeaders c = Normal (FileBody (fileData c), Some (getHeaders (fileData c)))) /\
  (forall form headers, dataAndHeaders c = Normal (FileBody form, headers) ->
   appFile c <> "") /\
  (forall data headers, dataAndHeaders c = Normal (UrlBody data, headers) ->
   appFile c = "" /\ appUrl c <> "").
Proof.
  unfold dataAndHeaders.
  destruct (string_truthy (appFile c)) eqn:Ef;
    [ apply string_truthy_true in Ef | apply string_truthy_false in Ef ];
    (destruct (string_truthy (appUrl c)) eqn:Eu;
     [ apply string_truthy_true in Eu | apply string_truthy_false in Eu ]);
    repeat split; try intros; try congruence; try tauto;
    try discriminate; try (exfalso; tauto).
Qed.

(** C5, witness: a file upload gives the form, a remote upload the object. *)
Lemma dataAndHeaders_variant_witness :
  dataAndHeaders file_upload
    = Normal (FileBody (fileData file_upload), Some (getHeaders (fileData file_upload))) /\
  dataAndHeaders url_upload = Normal (UrlBody (urlData url_upload), None).
Proof.
  split.
  - apply (proj1 (proj1 (dataAndHeaders_variant file_upload))). discriminate.
  - apply (proj1 (proj1 (proj2 (dataAndHeaders_variant url_upload)))).
    split; [reflexivity | discriminate].
Defined.

(** C6. For validated inputs with an empty file path and a remote URL,
    the body is an object whose properties are, in this order, url,
    platform, fileType, note, timeout, disabled, disableHome, useLastFrame,
    buttonText, postSessionButtonText and launchUrl, each holding the value
    of the inputs with its type; an empty note is carried as an empty
    text. *)
Theorem urlData_members (c : InputData) :
  validateInputData c = Normal tt -> appFile c = "" -> appUrl c <> "" ->
  exists data : UrlData.t,
    dataAndHeaders c = Normal (UrlBody data, None) /\
    UrlData.properties data =
      [ ("url", VString (appUrl c));
        ("platform", VString (platform c));
        ("fileType", VString (fileType c));
        ("note", VString (note c));
        ("timeout", VNumber (timeout c));
        ("disabled", VBoolean (disabled c));
        ("disableHome", VBoolean (disableHome c));
        ("useLastFrame", VBoolean (useLastFrame c));
        ("buttonText", VString (buttonText c));
        ("postSessionButtonText", VString (postSessionButtonText c));
        ("launchUrl", VString (launchUrl c)) ] /\
    (note c = "" -> In ("note", VString "") (UrlData.properties data)).
Proof.
  intros _ Hf Hu. exists (urlData c). split; [ | split].
  - unfold dataAndHeaders. rewrite Hf. apply string_truthy_true in Hu.
    now rewrite Hu.
  - reflexivity.
  - intros Hn. unfold UrlData.properties, urlData. cbn.
    rewrite Hn. auto 10.
Qed.

(** C6, witness: the object of a remote upload with an empty note. *)
Lemma urlData_members_witness :
  exists data : UrlData.t,
    dataAndHeaders url_upload = Normal (UrlBody data, None) /\
    UrlData.properties data =
      [ ("url", VString "https://files/app.apk");
        ("platform", VString "android");
        ("fileType", VString "apk");
        ("note", VString "");
        ("timeout", VNumber (of_Z 60));
        ("disabled", VBoolean false);
        ("disableHome", VBoolean false);
        ("useLastFrame", VBoolean false);
        ("buttonText", VString "");
        ("postSessionButtonText", VString "");
        ("launchUrl", VString "") ] /\
    (note url_upload = "" -> In ("note", VString "") (UrlData.properties data)).
Proof.
  apply (urlData_members url_upload); [reflexivity | reflexivity | discriminate].
Defined.

(** ** Missing source and the order of the rules *)

(** C7. When the file path and the remote URL are both empty, the
    validator fails with [MissingSource] provided the platform is valid,
    and the builder called on such inputs throws [MissingSource] too. *)
Theorem missing_source (c : InputData) :
  appFile c = "" -> appUrl c = "" ->
  (valid_platform c -> validateInputData c = Throw MissingSource) /\
  dataAndHeaders c = Throw MissingSource.
Proof.
  intros Hf Hu. split.
  - intros Hp. now apply validateInputData_source.
  - unfold dataAndHeaders. rewrite Hf, Hu. reflexivity.
Qed.

(** C7, witness: inputs for ios with no source, whose file type and
    timeout would fail later rules. *)
Lemma missing_source_witness :
  validateInputData no_source = Throw MissingSource /\
  dataAndHeaders no_source = Throw MissingSource.
Proof.
  destruct (missing_source no_source eq_refl eq_refl) as [Hv Hd].
  split; [apply Hv; left; reflexivity | exact Hd].
Defined.

(** C8. The validator reports the first rule that fails, in the order
    platform, source, file type, timeout: a platform other than ios and
    android fails with [InvalidPlatform] whatever the other fields hold;
    with a valid platform, no source fails with [MissingSource]; with a
    source as well, a file type outside the list fails with
    [InvalidFileType]; and with a valid file type as well, a timeout
    that is a number other than zero and outside the list fails with
    [InvalidTimeout]. *)
Theorem validateInputData_order (c : InputData) :
  (platform c <> "ios" -> platform c <> "android" ->
   validateInputData c = Throw InvalidPlatform) /\
  (valid_platform c -> appFile c = "" -> appUrl c = "" ->
   validateInputData c = Throw MissingSource) /\
  (valid_platform c -> has_source c -> ~ valid_fileType c ->
   validateInputData c = Throw InvalidFileType) /\
  (valid_platform c -> has_source c -> valid_fileType c ->
   timeout c <> NaN -> is_zero (timeout c) = false ->
   ~ In (timeout c) allowed_timeouts ->
   validateInputData c = Throw InvalidTimeout).
Proof.
  split; [apply validateInputData_platform | ].
  split; [apply validateInputData_source | ].
  split; [apply validateInputData_fileType | apply validateInputData_timeout].
Qed.

(** C8, witness: an empty platform and a platform in another case fail
    with [InvalidPlatform] on inputs that break every later rule as well. *)
Lemma validateInputData_order_witness :
  validateInputData (with_platform "" no_source) = Throw InvalidPlatform /\
  validateInputData (with_platform "Android" no_source) = Throw InvalidPlatform.
Proof.
  split.
  - apply (proj1 (validateInputData_order (with_platform "" no_source)));
      discriminate.
  - apply (proj1 (validateInputData_order (with_platform "Android" no_source)));
      discriminate.
Defined.

(** ** The boolean options *)

(** C9. Each of the flags disabled, disableHome and useLastFrame is true
    exactly when its option is a text that is not empty, the text false
    included, and false exactly when its option is the empty text. *)
Theorem boolean_options (getInput : string -> string) :
  (disabled (getInputs getInput) = true <-> getInput "disabled" <> "") /\
  (disabled (getInputs getInput) = false <-> getInput "disabled" = "") /\
  (disableHome (getInputs getInput) = true <-> getInput "disableHome" <> "") /\
  (disableHome (getInputs getInput) = false <-> getInput "disableHome" = "") /\
  (useLastFrame (getInputs getInput) = true <-> getInput "useLastFrame" <> "") /\
  (useLastFrame (getInputs getInput) = false <-> getInput "useLastFrame" = "") /\
  (getInput "disabled" = "false" -> disabled (getInputs getInput) = true) /\
  (getInput "disableHome" = "false" -> disableHome (getInputs getInput) = true) /\
  (getInput "useLastFrame" = "false" -> useLastFrame (getInputs getInput) = true).
Proof.
  cbn [getInputs disabled disableHome useLastFrame]. unfold Boolean.
  repeat split;
    try apply string_truthy_true; try apply string_truthy_false;
    try (intros ->; reflexivity).
Qed.

(** C9, witness: the option text false gives a true flag, the empty text
    a false one. *)
Lemma boolean_options_witness :
  disabled (getInputs (fun _ => "false")) = true /\
  disabled (getInputs (fun _ => "")) = false.
Proof.
  split.
  - destruct (boolean_options (fun _ => "false")) as (_ & _ & _ & _ & _ & _ & H & _).
    apply H. reflexivity.
  - destruct (boolean_options (fun _ => "")) as (_ & H & _).
    apply H. reflexivity.
Defined.

(** ** The diagnostics and the scrubbed copy *)

(** C3, as amended. A run from a world that holds the inputs prints the
    same lines whatever token the inputs hold: when the validator accepts
    the inputs, the address and the JSON text of a copy whose token is the
    placeholder scrubbed, and nothing otherwise. *)
Theorem diagnostics_independent_of_token
    (transport : Request -> completion Response.t) (inputs : loc)
    (w : World) (c : InputData) (token : string) :
  heap w !! inputs = Some c ->
  exists r1 w1 r2 w2,
    uploadBuild transport inputs w = Some (r1, w1) /\
    uploadBuild transport inputs (store_token inputs token w) = Some (r2, w2) /\
    output w1 = output w2 /\
    (validateInputData c = Normal tt ->
     output w1 = output w ++
       [ "Uploading build to " +:+ url c;
         "Attached scrubbed build info:";
         stringify (properties (scrubbedInputs c)) ] /\
     apiToken (scrubbedInputs c) = "scrubbed" /\
     In ("apiToken", VString "scrubbed") (properties (scrubbedInputs c))) /\
    (validateInputData c <> Normal tt -> output w1 = output w).
Proof.
  intros Hc.
  assert (heap (store_token inputs token w) !! inputs = Some (set_apiToken token c)) as Hc'.
  { unfold store_token. cbn [heap]. rewrite lookup_alter_eq, Hc. reflexivity. }
  rewrite (uploadBuild_run transport inputs w c Hc).
  rewrite (uploadBuild_run transport inputs _ _ Hc').
  change (validateInputData (set_apiToken token c)) with (validateInputData c).
  change (dataAndHeaders (set_apiToken token c)) with (dataAndHeaders c).
  change (diagnostics (set_apiToken token c)) with (diagnostics c).
  destruct (validateInputData c) as [[] | e] eqn:Ev.
  - destruct (validated_builds c Ev) as (data & headers & ->).
    do 4 eexists. split; [reflexivity | ]. split; [reflexivity | ].
    cbn [output store_token]. split; [reflexivity | ].
    split; [ | congruence].
    intros _. split; [reflexivity | ]. split; [reflexivity | ].
    cbn. auto.
  - do 4 eexists. split; [reflexivity | ]. split; [reflexivity | ].
    cbn [output store_token]. split; [reflexivity | ].
    split; [discriminate | reflexivity].
Qed.

(** C3, witness: a run on a remote upload and a run on the same inputs
    with the token secret print the same lines. *)
Lemma diagnostics_independent_of_token_witness :
  exists r1 w1 r2 w2,
    uploadBuild accept 1%positive (loaded url_upload) = Some (r1, w1) /\
    uploadBuild accept 1%positive (store_token 1%positive "secret" (loaded url_upload))
      = Some (r2, w2) /\
    output w1 = output w2 /\
    apiToken (scrubbedInputs url_upload) = "scrubbed".
Proof.
  destruct (diagnostics_independent_of_token accept 1%positive (loaded url_upload)
              url_upload "secret" eq_refl)
    as (r1 & w1 & r2 & w2 & H1 & H2 & H3 & H4 & _).
  exists r1, w1, r2, w2.
  split; [exact H1 | ]. split; [exact H2 | ]. split; [exact H3 | ].
  apply H4. reflexivity.
Defined.

(** C3, counterexample to the claim as stated: when the token is the
    text android and the platform is android, a printed line contains the
    text of the token. *)
Lemma diagnostics_contain_token_text :
  apiToken (set_apiToken "android" url_upload) = "android" /\
  existsb (occurs_in (apiToken (set_apiToken "android" url_upload)))
    (printed (uploadBuild accept 1%positive
                (loaded (set_apiToken "android" url_upload)))) = true.
Proof. split; vm_compute; reflexivity. Qed.

(** C10. A run from a world that holds the inputs ends with the inputs,
    and every object the world held, as they were; when the validator
    accepts the inputs, the scrubbed copy is a new object, the diagnostics
    are printed, and the one request sent carries the token of the inputs
    as user name and the empty text as password. *)
Theorem scrubbing_keeps_inputs
    (transport : Request -> completion Response.t) (inputs : loc)
    (w : World) (c : InputData) :
  heap w !! inputs = Some c ->
  exists result w',
    uploadBuild transport inputs w = Some (result, w') /\
    heap w' !! inputs = Some c /\
    (forall r o, heap w !! r = Some o -> heap w' !! r = Some o) /\
    (validateInputData c = Normal tt ->
     exists data headers request,
       dataAndHeaders c = Normal (data, headers) /\
       heap w' !! fresh (dom (heap w)) = Some (scrubbedInputs c) /\
       output w' = output w ++ diagnostics c /\
       requests w' = requests w ++ [request] /\
       address request = url c /\
       body request = data /\
       username (auth (config request)) = apiToken c /\
       password (auth (config request)) = "" /\
       result = relay (transport request)).
Proof.
  intros Hc. rewrite (uploadBuild_run transport inputs w c Hc).
  destruct (validateInputData c) as [[] | e] eqn:Ev.
  - destruct (validated_builds c Ev) as (data & headers & Hd). rewrite Hd.
    do 2 eexists. split; [reflexivity | ]. cbn [heap output requests].
    assert (forall r o, heap w !! r = Some o ->
              <[fresh (dom (heap w)) := scrubbedInputs c]> (heap w) !! r = Some o) as Hframe.
    { intros r o Hr. rewrite lookup_insert_ne; [exact Hr | ].
      intros E. apply (is_fresh (dom (heap w))). rewrite E.
      apply elem_of_dom. eauto. }
    split; [now apply Hframe | ]. split; [exact Hframe | ].
    intros _. exists data, headers, (request_of c data headers).
    rewrite lookup_insert_eq. repeat split.
  - do 2 eexists. split; [reflexivity | ].
    split; [exact Hc | ]. split; [auto | discriminate].
Qed.

(** C10, witness: after a run on a remote upload the inputs still hold
    the token tok, and the request sent carries it with an empty
    password. *)
Lemma scrubbing_keeps_inputs_witness :
  exists result w',
    uploadBuild accept 1%positive (loaded url_upload) = Some (result, w') /\
    heap w' !! 1%positive = Some url_upload /\
    exists request,
      requests w' = [request] /\
      username (auth (config request)) = "tok" /\
      password (auth (config request)) = "".
Proof.
  destruct (scrubbing_keeps_inputs accept 1%positive (loaded url_upload) url_upload eq_refl)
    as (result & w' & Hrun & Hin & _ & H).
  destruct (H eq_refl) as (data & headers & request & _ & _ & _ & Hreq & _ & _ & Hu & Hp & _).
  exists result, w'. split; [exact Hrun | ]. split; [exact Hin | ].
  exists request. split; [exact Hreq | ]. split; [exact Hu | exact Hp].
Defined.

(** * Further properties of the code *)

(** ** The validator *)

(** X1. The validator accepts a configuration exactly when the platform
    is ios or android, the file path or the remote URL is not empty, the
    file type is empty or one of apk, zip and tar.gz, and the timeout is
    [NaN], a zero or one of the nine listed values. *)
Theorem validateInputData_accepts_iff (c : InputData) :
  validateInputData c = Normal tt <->
  valid_platform c /\ has_source c /\ valid_fileType c /\
  (timeout c = NaN \/ is_zero (timeout c) = true \/ In (timeout c) allowed_timeouts).
Proof.
  split.
  - unfold validateInputData.
    destruct (string_ne (platform c) "ios" && string_ne (platform c) "android") eqn:E1;
      [discriminate | ].
    destruct (negb (string_truthy (appFile c)) && negb (string_truthy (appUrl c))) eqn:E2;
      [discriminate | ].
    match goal with |- (if ?g then _ else _) = _ -> _ => destruct g eqn:E3 end;
      [discriminate | ].
    match goal with |- (if ?g then _ else _) = _ -> _ => destruct g eqn:E4 end;
      [discriminate | ].
    intros _.
    apply platform_guard in E1. apply source_guard in E2.
    apply fileType_guard in E3. apply timeout_guard_false in E4. tauto.
  - intros (Hp & Hs & Ht & Hx). now apply validateInputData_passes.
Qed.

(** The five outcomes of the validator, each with the rules that lead to
    it. *)
Lemma validateInputData_cases (c : InputData) :
  (~ valid_platform c /\ validateInputData c = Throw InvalidPlatform) \/
  (valid_platform c /\ ~ has_source c /\ validateInputData c = Throw MissingSource) \/
  (valid_platform c /\ has_source c /\ ~ valid_fileType c /\
   validateInputData c = Throw InvalidFileType) \/
  (valid_platform c /\ has_source c /\ valid_fileType c /\
   (timeout c <> NaN /\ is_zero (timeout c) = false /\ ~ In (timeout c) allowed_timeouts) /\
   validateInputData c = Throw InvalidTimeout) \/
  (valid_platform c /\ has_source c /\ valid_fileType c /\
   (timeout c = NaN \/ is_zero (timeout c) = true \/ In (timeout c) allowed_timeouts) /\
   validateInputData c = Normal tt).
Proof.
  unfold validateInputData.
  destruct (string_ne (platform c) "ios" && string_ne (platform c) "android") eqn:E1.
  { left. split; [ | reflexivity]. intros H. apply platform_guard in H. congruence. }
  apply platform_guard in E1. right.
  destruct (negb (string_truthy (appFile c)) && negb (string_truthy (appUrl c))) eqn:E2.
  { left. split; [assumption | ]. split; [ | reflexivity].
    intros H. apply source_guard in H. congruence. }
  apply source_guard in E2. right.
  match goal with |- context [if ?g then Throw _ else if _ then _ else _] =>
    destruct g eqn:E3 end.
  { left. repeat (split; [assumption | ]). split; [ | reflexivity].
    intros H. apply fileType_guard in H. congruence. }
  apply fileType_guard in E3. right.
  match goal with |- context [if ?g then Throw _ else Normal _] => destruct g eqn:E4 end.
  - left. apply timeout_guard in E4. repeat (split; [assumption | ]). reflexivity.
  - right. apply timeout_guard_false in E4. repeat (split; [assumption | ]). reflexivity.
Qed.

(** X2. The error the validator throws names the first rule that fails:
    it is [InvalidPlatform] exactly when the platform is invalid,
    [MissingSource] exactly when the platform is valid and no source is
    given, [InvalidFileType] exactly when these two rules pass and the
    file type is outside its list, and [InvalidTimeout] exactly when the
    three rules pass and the timeout is a number other than zero outside
    its list; the validator throws no other error. *)
Theorem validateInputData_error_names_rule (c : InputData) :
  (validateInputData c = Throw InvalidPlatform <-> ~ valid_platform c) /\
  (validateInputData c = Throw MissingSource <-> valid_platform c /\ ~ has_source c) /\
  (validateInputData c = Throw InvalidFileType <->
   valid_platform c /\ has_source c /\ ~ valid_fileType c) /\
  (validateInputData c = Throw InvalidTimeout <->
   valid_platform c /\ has_source c /\ valid_fileType c /\
   timeout c <> NaN /\ is_zero (timeout c) = false /\ ~ In (timeout c) allowed_timeouts) /\
  (forall e, validateInputData c = Throw e ->
   In e [InvalidPlatform; MissingSource; InvalidFileType; InvalidTimeout]).
Proof.
  destruct (validateInputData_cases c)
    as [(H1 & ->) | [(H1 & H2 & ->) | [(H1 & H2 & H3 & ->) |
        [(H1 & H2 & H3 & (H4 & H5 & H6) & ->) | (H1 & H2 & H3 & H4 & ->)]]]];
    repeat split; try (intros; discriminate); try tauto;
    try (intros (? & ?); tauto); try (intros (? & ? & ?); tauto);
    try (intros e [= <-]; simpl; tauto).
  all: try (intros (? & ? & ? & ? & ? & ?); unfold NaN in *; intuition congruence).
Qed.

(** X3. The outcome of the validator depends on the platform, the file
    path, the remote URL, the file type and the timeout only: the host,
    the token, the public key and the other options are never checked. *)
Theorem validateInputData_reads_five_fields (c c' : InputData) :
  platform c = platform c' -> appFile c = appFile c' -> appUrl c = appUrl c' ->
  fileType c = fileType c' -> timeout c = timeout c' ->
  validateInputData c = validateInputData c'.
Proof.
  intros Hp Hf Hu Ht Hx. unfold validateInputData.
  now rewrite Hp, Hf, Hu, Ht, Hx.
Qed.

(** X3, witness: inputs with an empty host and an empty token are
    accepted like the remote upload they share the five fields with. *)
Lemma validateInputData_reads_five_fields_witness :
  validateInputData
    {| apiHost := ""; apiToken := ""; publicKey := ""; platform := "android";
       appFile := ""; appUrl := "https://files/app.apk"; fileType := "apk";
       note := "n"; timeout := of_Z 60; disabled := true; disableHome := true;
       useLastFrame := true; buttonText := "b"; postSessionButtonText := "p";
       launchUrl := "l" |}
  = validateInputData url_upload /\
  validateInputData url_upload = Normal tt.
Proof.
  split; [ | reflexivity].
  apply validateInputData_reads_five_fields; reflexivity.
Defined.

(** X4. A timeout option whose text [Number] reads as [NaN] is not
    rejected: when the other three rules pass the inputs read from the
    options are accepted, and a remote upload carries [NaN] as its
    timeout. *)
Theorem non_numeric_timeout_accepted (getInput : string -> string) :
  Number (getInput "timeout") = NaN ->
  valid_platform (getInputs getInput) -> has_source (getInputs getInput) ->
  valid_fileType (getInputs getInput) ->
  validateInputData (getInputs getInput) = Normal tt /\
  (getInput "appFile" = "" ->
   exists data, dataAndHeaders (getInputs getInput) = Normal (UrlBody data, None) /\
                UrlData.timeout data = NaN).
Proof.
  intros Hn Hp Hs Ht. split.
  - apply validateInputData_passes; auto.
  - intros Hf. exists (urlData (getInputs getInput)). split; [ | exact Hn].
    unfold dataAndHeaders. cbn [getInputs appFile appUrl]. rewrite Hf.
    destruct Hs as [Hs | Hs]; cbn [getInputs appFile appUrl] in Hs; [congruence | ].
    apply string_truthy_true in Hs. now rewrite Hs.
Qed.

(** X4, witness: the scenario with the timeout option one minute. *)
Lemma non_numeric_timeout_accepted_witness :
  validateInputData (getInputs (set_option "timeout" "one minute" scenario)) = Normal tt.
Proof.
  apply (non_numeric_timeout_accepted (set_option "timeout" "one minute" scenario)).
  - reflexivity.
  - right; reflexivity.
  - right; discriminate.
  - right; left; reflexivity.
Defined.

(** ** The builder *)

(** X5. On inputs the validator accepted the builder never throws: it
    returns the form of [fileData] with its headers when the file path is
    not empty, and the object of [urlData] without headers otherwise. *)
Theorem validated_inputs_build (c : InputData) :
  validateInputData c = Normal tt ->
  (appFile c <> "" /\
   dataAndHeaders c = Normal (FileBody (fileData c), Some (getHeaders (fileData c)))) \/
  (appFile c = "" /\ appUrl c <> "" /\
   dataAndHeaders c = Normal (UrlBody (urlData c), None)).
Proof.
  intros H. apply validateInputData_has_source in H. unfold dataAndHeaders.
  destruct (string_truthy (appFile c)) eqn:Ef.
  - left. apply string_truthy_true in Ef. auto.
  - right. apply string_truthy_false in Ef.
    destruct H as [H | H]; [congruence | ].
    split; [assumption | ]. split; [assumption | ].
    apply string_truthy_true in H. now rewrite H.
Qed.

(** X5, witness: the remote upload. *)
Lemma validated_inputs_build_witness :
  (appFile url_upload <> "" /\
   dataAndHeaders url_upload
     = Normal (FileBody (fileData url_upload), Some (getHeaders (fileData url_upload)))) \/
  (appFile url_upload = "" /\ appUrl url_upload <> "" /\
   dataAndHeaders url_upload = Normal (UrlBody (urlData url_upload), None)).
Proof. apply (validated_inputs_build url_upload). reflexivity. Defined.

(** X6. When the file path is not empty the remote URL is never used:
    the validator and the builder give the same outcome whatever the
    remote URL is. *)
Theorem file_path_shadows_url (c : InputData) (u : string) :
  appFile c <> "" ->
  validateInputData (with_appUrl u c) = validateInputData c /\
  dataAndHeaders (with_appUrl u c) = dataAndHeaders c.
Proof.
  intros Hf. apply string_truthy_true in Hf. split.
  - unfold validateInputData. cbn [with_appUrl platform appFile appUrl fileType timeout].
    rewrite Hf. reflexivity.
  - unfold dataAndHeaders. cbn [with_appUrl appFile]. rewrite Hf. reflexivity.
Qed.

(** X6, witness: the file upload with a remote URL added. *)
Lemma file_path_shadows_url_witness :
  validateInputData (with_appUrl "https://files/other.apk" file_upload)
    = validateInputData file_upload /\
  dataAndHeaders (with_appUrl "https://files/other.apk" file_upload)
    = dataAndHeaders file_upload.
Proof. apply (file_path_shadows_url file_upload). discriminate. Defined.

Lemma string_app_assoc (a b c : string) : (a +:+ b) +:+ c = a +:+ (b +:+ c).
Proof.
  induction a as [ | h r IH]; [reflexivity | ].
  change (String h ((r +:+ b) +:+ c) = String h (r +:+ (b +:+ c))).
  now f_equal.
Qed.

(** X7. The address is always the host, then [/v1/apps/], then the public
    key: the two branches of [url] agree, and the address of an update is
    the address of the collection followed by the key. Nothing is added,
    removed or encoded. *)
Theorem url_extends_collection (c : InputData) :
  url c = apiHost c +:+ "/v1/apps/" +:+ publicKey c.
Proof.
  unfold url, apiVersion.
  destruct (publicKey c) as [ | a k]; cbn [string_truthy].
  - reflexivity.
  - now rewrite string_app_assoc.
Qed.

(** ** The multipart form *)

(** X8. With [appendOptional] appending exactly the texts that are not
    empty, each of the five text options fileType, note, buttonText,
    postSessionButtonText and launchUrl is a field of the form exactly
    when it is not empty, and then with its own text as value. *)
Theorem fileData_text_options (c : InputData) (v : FormValue) :
  (In ("fileType", v) (fileData c) <-> v = Text (fileType c) /\ fileType c <> "") /\
  (In ("note", v) (fileData c) <-> v = Text (note c) /\ note c <> "") /\
  (In ("buttonText", v) (fileData c) <-> v = Text (buttonText c) /\ buttonText c <> "") /\
  (In ("postSessionButtonText", v) (fileData c) <->
   v = Text (postSessionButtonText c) /\ postSessionButtonText c <> "") /\
  (In ("launchUrl", v) (fileData c) <-> v = Text (launchUrl c) /\ launchUrl c <> "").
Proof.
  rewrite fileData_fields, !in_app_iff, !In_optional. simpl.
  repeat split; intros; intuition (try discriminate; try congruence).
Qed.

(** X9. The form always holds the read stream of the file path as file
    and the platform as platform; with [appendOptional] appending exactly
    the texts that are not empty, it also always holds the text of the
    timeout and the texts of the three flags, whatever their values. *)
Theorem fileData_fixed_fields (c : InputData) (v : FormValue) :
  (In ("file", v) (fileData c) <-> v = ReadStream (appFile c)) /\
  (In ("platform", v) (fileData c) <-> v = Text (platform c)) /\
  (In ("timeout", v) (fileData c) <-> v = Text (NumberToString (timeout c))) /\
  (In ("disabled", v) (fileData c) <-> v = Text (BooleanToString (disabled c))) /\
  (In ("disableHome", v) (fileData c) <-> v = Text (BooleanToString (disableHome c))) /\
  (In ("useLastFrame", v) (fileData c) <-> v = Text (BooleanToString (useLastFrame c))).
Proof.
  rewrite fileData_fields, !in_app_iff, !In_optional. simpl.
  repeat split; intros; intuition (try discriminate; try congruence).
Qed.

(** X10. No key occurs twice in the form, and the form starts with the
    file and the platform, in this order. *)
Theorem fileData_keys_NoDup (c : InputData) :
  NoDup (map fst (fileData c)) /\
  exists rest, fileData c =
    ("file", ReadStream (appFile c)) :: ("platform", Text (platform c)) :: rest.
Proof.
  rewrite fileData_fields. split; [ | simpl; eauto].
  unfold optional.
  destruct (string_truthy (fileType c)), (string_truthy (note c)),
    (string_truthy (buttonText c)), (string_truthy (postSessionButtonText c)),
    (string_truthy (launchUrl c)); simpl;
    apply (bool_decide_unpack _); vm_compute; reflexivity.
Qed.

(** ** The upload step *)

(** X11. When the validator rejects the inputs, the upload step throws
    the error of the validator and leaves the world as it was: nothing
    is printed, no object is created and no request is sent. *)
Theorem uploadBuild_rejects_before_effects
    (transport : Request -> completion Response.t) (inputs : loc)
    (w : World) (c : InputData) (e : Error) :
  heap w !! inputs = Some c ->
  validateInputData c = Throw e ->
  uploadBuild transport inputs w = Some (Throw e, w).
Proof.
  intros Hc Hv. rewrite (uploadBuild_run transport inputs w c Hc), Hv. reflexivity.
Qed.

(** X11, witness: inputs with no source. *)
Lemma uploadBuild_rejects_before_effects_witness :
  uploadBuild accept 1%positive (loaded no_source)
    = Some (Throw MissingSource, loaded no_source).
Proof.
  apply (uploadBuild_rejects_before_effects accept 1%positive (loaded no_source) no_source);
    reflexivity.
Defined.





(** X14. The token reaches the request as the user name only: on
    accepted inputs, the requests sent for two tokens have the same
    address, the same body and the same headers, the user name is the
    token and the password is empty. *)
Theorem token_only_in_auth
    (transport : Request -> completion Response.t) (inputs : loc)
    (w : World) (c : InputData) (token : string) :
  heap w !! inputs = Some c ->
  validateInputData c = Normal tt ->
  exists r1 w1 q1 r2 w2 q2,
    uploadBuild transport inputs w = Some (r1, w1) /\
    uploadBuild transport inputs (store_token inputs token w) = Some (r2, w2) /\
    requests w1 = requests w ++ [q1] /\
    requests w2 = requests w ++ [q2] /\
    address q1 = address q2 /\
    body q1 = body q2 /\
    headers (config q1) = headers (config q2) /\
    username (auth (config q2)) = token /\
    password (auth (config q2)) = "".
Proof.
  intros Hc Hv.
  assert (heap (store_token inputs token w) !! inputs = Some (set_apiToken token c)) as Hc'.
  { unfold store_token. cbn [heap]. rewrite lookup_alter_eq, Hc. reflexivity. }
  rewrite (uploadBuild_run transport inputs w c Hc).
  rewrite (uploadBuild_run transport inputs _ _ Hc').
  change (validateInputData (set_apiToken token c)) with (validateInputData c).
  change (dataAndHeaders (set_apiToken token c)) with (dataAndHeaders c).
  rewrite Hv. destruct (validated_builds c Hv) as (data & headers & ->).
  do 6 eexists. split; [reflexivity | ]. split; [reflexivity | ].
  cbn [requests store_token]. split; [reflexivity | ]. split; [reflexivity | ].
  repeat split.
Qed.

(** X14, witness: the remote upload with the token secret. *)
Lemma token_only_in_auth_witness :
  exists r1 w1 q1 r2 w2 q2,
    uploadBuild accept 1%positive (loaded url_upload) = Some (r1, w1) /\
    uploadBuild accept 1%positive (store_token 1%positive "secret" (loaded url_upload))
      = Some (r2, w2) /\
    requests w1 = [q1] /\ requests w2 = [q2] /\
    body q1 = body q2 /\ username (auth (config q2)) = "secret".
Proof.
  destruct (token_only_in_auth accept 1%positive (loaded url_upload) url_upload "secret"
              eq_refl eq_refl)
    as (r1 & w1 & q1 & r2 & w2 & q2 & H1 & H2 & H3 & H4 & _ & H5 & _ & H6 & _).
  exists r1, w1, q1, r2, w2, q2. repeat (split; [assumption | ]). assumption.
Defined.
